(** * AC200 Ethernet PHY driver (drivers/net/phy/ac200.c)

    The driver is straight-line code that talks to the rest of the kernel:
    the parent MFD chip (ac200_reg_write, ac200_reg_mod), the MDIO bus
    (phy_write, phy_read), NVMEM, the device-managed allocator and the PHY
    core.  Each routine is embedded as a finite interaction: a tree whose
    nodes are the kernel calls the routine makes, in program order, and
    whose branches are the values the kernel may answer.  Running a tree
    against a handler gives the list of calls made with their answers. *)

From Stdlib Require Import ZArith List String Bool Lia.
From Stdlib Require Import Strings.Byte.
Import ListNotations.
Open Scope Z_scope.

(** ** C integer types and kernel macros used by the driver *)

Module C.

Definition u16 (x : Z) : Z := x mod 2 ^ 16.
Definition u32 (x : Z) : Z := x mod 2 ^ 32.
Definition u64 (x : Z) : Z := x mod 2 ^ 64.
Definition s32 (x : Z) : Z := (x + 2 ^ 31) mod 2 ^ 32 - 2 ^ 31.
Definition s64 (x : Z) : Z := (x + 2 ^ 63) mod 2 ^ 64 - 2 ^ 63.

(** linux/bits.h: BIT(nr) is (1UL << (nr)). *)
Definition BIT (nr : Z) : Z := Z.shiftl 1 nr.

(** ~x on an unsigned long. *)
Definition not_ulong (x : Z) : Z := u64 (Z.lnot x).

(** linux/err.h *)
Definition MAX_ERRNO : Z := 4095.
Definition IS_ERR (ptr : Z) : bool := u64 (- MAX_ERRNO) <=? u64 ptr.
Definition PTR_ERR (ptr : Z) : Z := s64 ptr.

(** uapi/asm-generic/errno-base.h *)
Definition ENOMEM : Z := 12.
Definition EINVAL : Z := 22.

(** A u16 load through a pointer into a byte buffer; the SoCs that carry
    the AC200 run little-endian. *)
Definition load_u16 (buf : list byte) : Z :=
  match buf with
  | b0 :: b1 :: _ => Z.of_N (Byte.to_N b0) + 256 * Z.of_N (Byte.to_N b1)
  | _ => 0
  end.

End C.
Import C.

(** ** Register map and bit fields *)

(** Modelled from the spec: the register addresses AC200_SYS_EPHY_CTL0,
    AC200_SYS_EPHY_CTL1 and AC200_EPHY_CTL are defined in linux/mfd/ac200.h,
    which is not part of the driver source; the three registers the driver
    names are kept symbolic. *)
Inductive ac200_reg : Type :=
| AC200_SYS_EPHY_CTL0
| AC200_SYS_EPHY_CTL1
| AC200_EPHY_CTL.

Definition ac200_reg_eqb (a b : ac200_reg) : bool :=
  match a, b with
  | AC200_SYS_EPHY_CTL0, AC200_SYS_EPHY_CTL0
  | AC200_SYS_EPHY_CTL1, AC200_SYS_EPHY_CTL1
  | AC200_EPHY_CTL, AC200_EPHY_CTL => true
  | _, _ => false
  end.

Definition AC200_EPHY_ID : Z := 0x00441400.
Definition AC200_EPHY_ID_MASK : Z := 0x0ffffff0.

(* system ephy control 0 register *)
Definition AC200_EPHY_RESET_INVALID : Z := BIT 0.
Definition AC200_EPHY_SYSCLK_GATING : Z := BIT 1.

(* system ephy control 1 register *)
Definition AC200_EPHY_E_EPHY_MII_IO_EN : Z := BIT 0.
Definition AC200_EPHY_E_LNK_LED_IO_EN : Z := BIT 1.
Definition AC200_EPHY_E_SPD_LED_IO_EN : Z := BIT 2.
Definition AC200_EPHY_E_DPX_LED_IO_EN : Z := BIT 3.

(* ephy control register *)
Definition AC200_EPHY_SHUTDOWN : Z := BIT 0.
Definition AC200_EPHY_LED_POL : Z := BIT 1.
Definition AC200_EPHY_CLK_SEL : Z := BIT 2.
Definition AC200_EPHY_ADDR (x : Z) : Z := Z.shiftl (Z.land x 0x1F) 4.
Definition AC200_EPHY_XMII_SEL : Z := BIT 11.
Definition AC200_EPHY_CALIB (x : Z) : Z := Z.shiftl (Z.land x 0xF) 12.

(** The calibration field of an AC200_EPHY_CTL value: bits 15:12. *)
Definition calib_field (ctl : Z) : Z := Z.land (Z.shiftr ctl 12) 0xF.

(** ** Kernel objects *)

(** linux/phy.h: phy_interface_t. *)
Inductive phy_interface_t : Type :=
| PHY_INTERFACE_MODE_NA
| PHY_INTERFACE_MODE_INTERNAL
| PHY_INTERFACE_MODE_MII
| PHY_INTERFACE_MODE_GMII
| PHY_INTERFACE_MODE_SGMII
| PHY_INTERFACE_MODE_TBI
| PHY_INTERFACE_MODE_REVMII
| PHY_INTERFACE_MODE_RMII
| PHY_INTERFACE_MODE_RGMII
| PHY_INTERFACE_MODE_RGMII_ID
| PHY_INTERFACE_MODE_RGMII_RXID
| PHY_INTERFACE_MODE_RGMII_TXID
| PHY_INTERFACE_MODE_RTBI
| PHY_INTERFACE_MODE_SMII
| PHY_INTERFACE_MODE_XGMII
| PHY_INTERFACE_MODE_MOCA
| PHY_INTERFACE_MODE_QSGMII
| PHY_INTERFACE_MODE_TRGMII
| PHY_INTERFACE_MODE_1000BASEX
| PHY_INTERFACE_MODE_2500BASEX
| PHY_INTERFACE_MODE_RXAUI
| PHY_INTERFACE_MODE_XAUI
| PHY_INTERFACE_MODE_10GKR
| PHY_INTERFACE_MODE_USXGMII.

Definition is_rmii (m : phy_interface_t) : bool :=
  match m with
  | PHY_INTERFACE_MODE_RMII => true
  | _ => false
  end.

(** The callbacks probe installs in the phy_driver. *)
Inductive phy_op : Type :=
| genphy_soft_reset
| genphy_suspend
| genphy_resume
| ac200_ephy_config_init_op.

(** struct ac200_ephy_dev: both members are pointers.  The members are
    reached as [Priv.ephy] and [Priv.ac200], which leaves the plain names to
    the local variables of probe. *)
Module Priv.
Record ac200_ephy_dev : Type := {
  ephy : Z;
  ac200 : Z
}.
End Priv.
Abbreviation ac200_ephy_dev := Priv.ac200_ephy_dev.

(** The members of struct phy_driver that probe fills in. *)
Record phy_driver : Type := {
  phy_id : Z;
  phy_id_mask : Z;
  name : string;
  driver_data : Z;
  soft_reset : phy_op;
  config_init : phy_op;
  suspend : phy_op;
  resume : phy_op
}.

(** What the driver reads of a platform device: the parent's driver data
    (the struct ac200_dev pointer) and its own driver data. *)
Record platform_device : Type := {
  parent_drvdata : Z;
  drvdata : ac200_ephy_dev
}.

(** What config_init reads of a PHY device: the interface mode and, through
    phydev->drv->driver_data, the driver's private data. *)
Record phy_device : Type := {
  interface : phy_interface_t;
  drv_driver_data : ac200_ephy_dev
}.

Inductive alloc_what : Type :=
| sizeof_priv
| sizeof_ephy.

Definition ac200_phy_name : string := "AC200 EPHY".

(** The line feed that ends the driver's log messages. *)
Definition LF : string := String (Ascii.ascii_of_nat 10) EmptyString.

(** ** Interactions *)

(** The kernel services the driver calls, indexed by the type of their
    answer.  Pointers are unsigned long values; ints are Z.  The struct
    device, GFP_KERNEL and THIS_MODULE arguments are the same in every call
    and left out; MDIO accesses go to the PHY device the routine was called
    with.  nvmem_cell_read answers the returned pointer together with the
    bytes of the buffer it points to, whose count is what the call stores
    in *len.  platform_set_drvdata and phy_driver_register carry the pointer
    they are given and the members of the struct it points to. *)
Inductive call : Type -> Type :=
| devm_kzalloc (what : alloc_what) : call Z
| devm_nvmem_cell_get (cell_name : string) : call Z
| nvmem_cell_read (cell : Z) : call (Z * list byte)
| kfree (p : Z) : call unit
| dev_err (fmt : string) (args : list Z) : call unit
| platform_set_drvdata (p : Z) (contents : ac200_ephy_dev) : call unit
| ac200_reg_write (dev : Z) (reg : ac200_reg) (value : Z) : call Z
| ac200_reg_mod (dev : Z) (reg : ac200_reg) (mask value : Z) : call Z
| phy_driver_register (p : Z) (contents : phy_driver) : call Z
| phy_driver_unregister (p : Z) : call unit
| phy_write (regnum val : Z) : call Z
| phy_read (regnum : Z) : call Z.

Inductive prog (R : Type) : Type :=
| Ret (r : R)
| Vis {X : Type} (c : call X) (k : X -> prog R).
Arguments Ret {R} r.
Arguments Vis {R X} c k.

Fixpoint bind {A B : Type} (p : prog A) (f : A -> prog B) : prog B :=
  match p with
  | Ret a => f a
  | Vis c k => Vis c (fun x => bind (k x) f)
  end.

Definition trigger {X : Type} (c : call X) : prog X := Vis c Ret.

Declare Scope prog_scope.
Delimit Scope prog_scope with prog.
Notation "x <- c ;; k" := (bind c (fun x => k))
  (at level 100, c at next level, right associativity) : prog_scope.
Notation "c ;;; k" := (bind c (fun _ => k))
  (at level 100, right associativity) : prog_scope.
Open Scope prog_scope.

(** One call with the answer it got. *)
Inductive event : Type :=
| Ev {X : Type} (c : call X) (x : X).

(** A handler answers every call and moves the world on. *)
Definition handler (W : Type) : Type := forall X : Type, call X -> W -> X * W.

Record outcome (R W : Type) : Type := {
  trace : list event;
  result : R;
  world : W
}.
Arguments trace {R W} o.
Arguments result {R W} o.
Arguments world {R W} o.

Fixpoint exec {R W : Type} (h : handler W) (p : prog R) (w : W) : outcome R W :=
  match p with
  | Ret r => {| trace := []; result := r; world := w |}
  | Vis c k =>
      let (x, w1) := h _ c w in
      match exec h (k x) w1 with
      | {| trace := tr; result := r; world := w2 |} =>
          {| trace := Ev c x :: tr; result := r; world := w2 |}
      end
  end.

(** ** The driver *)

Definition disable_intelligent_ieee : prog unit :=
  trigger (phy_write 0x1f 0x0100) ;;;       (* switch to page 1 *)
  r <- trigger (phy_read 0x17) ;;
  let value := u32 r in
  let value := u32 (Z.land value (not_ulong (BIT 3))) in  (* disable IEEE *)
  trigger (phy_write 0x17 (u16 value)) ;;;
  trigger (phy_write 0x1f 0x0000) ;;;       (* switch to page 0 *)
  Ret tt.

Definition disable_802_3az_ieee : prog unit :=
  trigger (phy_write 0xd 0x7) ;;;
  trigger (phy_write 0xe 0x3c) ;;;
  trigger (phy_write 0xd (Z.lor (BIT 14) 0x7)) ;;;
  r <- trigger (phy_read 0xe) ;;
  let value := u32 r in
  let value := u32 (Z.land value (not_ulong (BIT 1))) in
  trigger (phy_write 0xd 0x7) ;;;
  trigger (phy_write 0xe 0x3c) ;;;
  trigger (phy_write 0xd (Z.lor (BIT 14) 0x7)) ;;;
  trigger (phy_write 0xe (u16 value)) ;;;
  trigger (phy_write 0x1f 0x0200) ;;;       (* switch to page 2 *)
  trigger (phy_write 0x18 0x0000) ;;;
  Ret tt.

Definition ac200_ephy_config_init (phydev : phy_device) : prog Z :=
  let priv := drv_driver_data phydev in
  trigger (phy_write 0x1f 0x0100) ;;;       (* Switch to Page 1 *)
  trigger (phy_write 0x12 0x4824) ;;;       (* Disable APS *)
  trigger (phy_write 0x1f 0x0200) ;;;       (* Switch to Page 2 *)
  trigger (phy_write 0x18 0x0000) ;;;       (* PHYAFE TRX optimization *)
  trigger (phy_write 0x1f 0x0600) ;;;       (* Switch to Page 6 *)
  trigger (phy_write 0x14 0x708f) ;;;       (* PHYAFE TX optimization *)
  trigger (phy_write 0x13 0xF000) ;;;       (* PHYAFE RX optimization *)
  trigger (phy_write 0x15 0x1530) ;;;
  trigger (phy_write 0x1f 0x0800) ;;;       (* Switch to Page 6 *)
  trigger (phy_write 0x18 0x00bc) ;;;       (* PHYAFE TRX optimization *)
  disable_intelligent_ieee ;;;              (* Disable Intelligent IEEE *)
  disable_802_3az_ieee ;;;                  (* Disable 802.3az IEEE *)
  trigger (phy_write 0x1f 0x0000) ;;;       (* Switch to Page 0 *)
  let value :=
    u16 (if is_rmii (interface phydev) then AC200_EPHY_XMII_SEL else 0) in
  trigger (ac200_reg_mod (Priv.ac200 priv) AC200_EPHY_CTL
                         AC200_EPHY_XMII_SEL value) ;;;
  (* FIXME: This is probably H6 specific *)
  r <- trigger (phy_read 0x13) ;;
  let value := u16 r in
  let value := u16 (Z.lor value (BIT 12)) in
  trigger (phy_write 0x13 value) ;;;
  Ret 0.

Definition ac200_ephy_probe (pdev : platform_device) : prog Z :=
  let ac200 := parent_drvdata pdev in
  priv <- trigger (devm_kzalloc sizeof_priv) ;;
  if priv =? 0 then Ret (- ENOMEM) else
  ephy <- trigger (devm_kzalloc sizeof_ephy) ;;
  if ephy =? 0 then Ret (- ENOMEM) else
  calcell <- trigger (devm_nvmem_cell_get "ephy_calib") ;;
  if IS_ERR calcell then
    trigger (dev_err ("Unable to find calibration data!" ++ LF) []) ;;;
    Ret (s32 (PTR_ERR calcell))
  else
  rd <- trigger (nvmem_cell_read calcell) ;;
  let caldata := fst rd in
  let callen := Z.of_nat (List.length (snd rd)) in
  if IS_ERR caldata then
    trigger (dev_err ("Unable to read calibration data!" ++ LF) []) ;;;
    Ret (s32 (PTR_ERR caldata))
  else
  if negb (callen =? 2) then
    trigger (dev_err ("Calibration data has wrong length: 2 != %lu" ++ LF)
                   [callen]) ;;;
    Ret (- EINVAL)
  else
  let calib := u16 (load_u16 (snd rd) + 3) in
  trigger (kfree caldata) ;;;
  let ephy_contents :=
    {| phy_id := AC200_EPHY_ID;
       phy_id_mask := AC200_EPHY_ID_MASK;
       name := ac200_phy_name;
       driver_data := priv;
       soft_reset := genphy_soft_reset;
       config_init := ac200_ephy_config_init_op;
       suspend := genphy_suspend;
       resume := genphy_resume |} in
  let priv_contents := {| Priv.ephy := ephy; Priv.ac200 := ac200 |} in
  trigger (platform_set_drvdata priv priv_contents) ;;;
  ret <- trigger (ac200_reg_write ac200 AC200_SYS_EPHY_CTL0
                    (Z.lor AC200_EPHY_RESET_INVALID
                           AC200_EPHY_SYSCLK_GATING)) ;;
  if negb (ret =? 0) then Ret ret else
  ret <- trigger (ac200_reg_write ac200 AC200_SYS_EPHY_CTL1
                    (Z.lor (Z.lor (Z.lor AC200_EPHY_E_EPHY_MII_IO_EN
                                         AC200_EPHY_E_LNK_LED_IO_EN)
                                  AC200_EPHY_E_SPD_LED_IO_EN)
                           AC200_EPHY_E_DPX_LED_IO_EN)) ;;
  if negb (ret =? 0) then Ret ret else
  ret <- trigger (ac200_reg_write ac200 AC200_EPHY_CTL
                    (Z.lor (Z.lor (Z.lor AC200_EPHY_LED_POL
                                         AC200_EPHY_CLK_SEL)
                                  (AC200_EPHY_ADDR 1))
                           (AC200_EPHY_CALIB calib))) ;;
  if negb (ret =? 0) then Ret ret else
  ret <- trigger (phy_driver_register (Priv.ephy priv_contents) ephy_contents) ;;
  if negb (ret =? 0) then
    trigger (dev_err ("Unable to register phy" ++ LF) []) ;;;
    Ret ret
  else
  Ret 0.

Definition ac200_ephy_remove (pdev : platform_device) : prog Z :=
  let priv := drvdata pdev in
  trigger (phy_driver_unregister (Priv.ephy priv)) ;;;
  trigger (ac200_reg_write (Priv.ac200 priv) AC200_EPHY_CTL AC200_EPHY_SHUTDOWN) ;;;
  trigger (ac200_reg_write (Priv.ac200 priv) AC200_SYS_EPHY_CTL1 0) ;;;
  trigger (ac200_reg_write (Priv.ac200 priv) AC200_SYS_EPHY_CTL0 0) ;;;
  Ret 0.

(** ** Observations on traces *)

(** The register traffic of a trace: MDIO and chip accesses with their
    arguments, reads with the value read. *)
Inductive access : Type :=
| MdioWrite (regnum val : Z)
| MdioRead (regnum answer : Z)
| ChipWrite (reg : ac200_reg) (val : Z)
| ChipMod (reg : ac200_reg) (mask val : Z).

Definition access_of (ev : event) : option access :=
  match ev with
  | Ev c x =>
      match c in call X return X -> option access with
      | phy_write regnum val => fun _ => Some (MdioWrite regnum val)
      | phy_read regnum => fun answer => Some (MdioRead regnum answer)
      | ac200_reg_write _ reg val => fun _ => Some (ChipWrite reg val)
      | ac200_reg_mod _ reg mask val => fun _ => Some (ChipMod reg mask val)
      | _ => fun _ => None
      end x
  end.

Fixpoint accesses (tr : list event) : list access :=
  match tr with
  | [] => []
  | ev :: tr' =>
      match access_of ev with
      | Some a => a :: accesses tr'
      | None => accesses tr'
      end
  end.

Definition is_write (a : access) : bool :=
  match a with
  | MdioRead _ _ => false
  | _ => true
  end.

Definition writes (tr : list event) : list access :=
  filter is_write (accesses tr).

Definition reads (tr : list event) : list access :=
  filter (fun a => negb (is_write a)) (accesses tr).

(** The register numbers touched, in order, without the data. *)
Inductive touched : Type :=
| TMdioWrite (regnum : Z)
| TMdioRead (regnum : Z)
| TChipWrite (reg : ac200_reg)
| TChipMod (reg : ac200_reg) (mask : Z).

Definition touch (a : access) : touched :=
  match a with
  | MdioWrite regnum _ => TMdioWrite regnum
  | MdioRead regnum _ => TMdioRead regnum
  | ChipWrite reg _ => TChipWrite reg
  | ChipMod reg mask _ => TChipMod reg mask
  end.

(** The status a bring-up call answered when it failed: ac200_reg_write and
    phy_driver_register fail when they answer non-zero. *)
Definition bringup_failure (ev : event) : option Z :=
  match ev with
  | Ev c x =>
      match c in call X return X -> option Z with
      | ac200_reg_write _ _ _ => fun ret => if ret =? 0 then None else Some ret
      | phy_driver_register _ _ => fun ret => if ret =? 0 then None else Some ret
      | _ => fun _ => None
      end x
  end.

(** The status an MDIO write answered when it failed (negative errno). *)
Definition mdio_write_failure (ev : event) : option Z :=
  match ev with
  | Ev c x =>
      match c in call X return X -> option Z with
      | phy_write _ _ => fun ret => if ret <? 0 then Some ret else None
      | _ => fun _ => None
      end x
  end.

(** The answers of the phy_driver_register calls of a trace. *)
Definition register_answer (ev : event) : option Z :=
  match ev with
  | Ev c x =>
      match c in call X return X -> option Z with
      | phy_driver_register _ _ => fun ret => Some ret
      | _ => fun _ => None
      end x
  end.

Fixpoint register_answers (tr : list event) : list Z :=
  match tr with
  | [] => []
  | ev :: tr' =>
      match register_answer ev with
      | Some r => r :: register_answers tr'
      | None => register_answers tr'
      end
  end.

(** A PHY driver is registered after the trace when a registration
    succeeded in it. *)
Definition registered (tr : list event) : bool :=
  existsb (fun r => r =? 0) (register_answers tr).

Definition is_unregister (ev : event) : bool :=
  match ev with
  | Ev (phy_driver_unregister _) _ => true
  | _ => false
  end.

(** The answers of the ac200_reg_write calls of a trace. *)
Definition chip_write_answer (ev : event) : option Z :=
  match ev with
  | Ev c x =>
      match c in call X return X -> option Z with
      | ac200_reg_write _ _ _ => fun ret => Some ret
      | _ => fun _ => None
      end x
  end.

Fixpoint chip_write_answers (tr : list event) : list Z :=
  match tr with
  | [] => []
  | ev :: tr' =>
      match chip_write_answer ev with
      | Some r => r :: chip_write_answers tr'
      | None => chip_write_answers tr'
      end
  end.

(** The buffers nvmem_cell_read handed out in a trace. *)
Definition cell_read (ev : event) : option (Z * list byte) :=
  match ev with
  | Ev c x =>
      match c in call X return X -> option (Z * list byte) with
      | nvmem_cell_read _ => fun rd => Some rd
      | _ => fun _ => None
      end x
  end.

Fixpoint cell_reads (tr : list event) : list (Z * list byte) :=
  match tr with
  | [] => []
  | ev :: tr' =>
      match cell_read ev with
      | Some rd => rd :: cell_reads tr'
      | None => cell_reads tr'
      end
  end.

(** The pointers devm_nvmem_cell_get answered in a trace. *)
Definition cell_get (ev : event) : option Z :=
  match ev with
  | Ev c x =>
      match c in call X return X -> option Z with
      | devm_nvmem_cell_get _ => fun p => Some p
      | _ => fun _ => None
      end x
  end.

Fixpoint cell_gets (tr : list event) : list Z :=
  match tr with
  | [] => []
  | ev :: tr' =>
      match cell_get ev with
      | Some p => p :: cell_gets tr'
      | None => cell_gets tr'
      end
  end.

(** The registers config_init touches, in program order. *)
Definition config_init_touched : list touched :=
  [TMdioWrite 0x1f; TMdioWrite 0x12;
   TMdioWrite 0x1f; TMdioWrite 0x18;
   TMdioWrite 0x1f; TMdioWrite 0x14; TMdioWrite 0x13; TMdioWrite 0x15;
   TMdioWrite 0x1f; TMdioWrite 0x18;
   TMdioWrite 0x1f; TMdioRead 0x17; TMdioWrite 0x17; TMdioWrite 0x1f;
   TMdioWrite 0xd; TMdioWrite 0xe; TMdioWrite 0xd; TMdioRead 0xe;
   TMdioWrite 0xd; TMdioWrite 0xe; TMdioWrite 0xd; TMdioWrite 0xe;
   TMdioWrite 0x1f; TMdioWrite 0x18;
   TMdioWrite 0x1f;
   TChipMod AC200_EPHY_CTL AC200_EPHY_XMII_SEL;
   TMdioRead 0x13; TMdioWrite 0x13].

(** How the calibration lookup of a probe run went wrong, with the status
    it is reported as: devm_nvmem_cell_get answered an error pointer,
    nvmem_cell_read answered an error pointer, or the buffer read does not
    hold 2 bytes. *)
Inductive calibration_fault (tr : list event) : Z -> Prop :=
| cell_missing (p : Z) :
    cell_gets tr = [p] -> IS_ERR p = true ->
    calibration_fault tr (s32 (PTR_ERR p))
| cell_unreadable (q : Z) (buf : list byte) :
    cell_reads tr = [(q, buf)] -> IS_ERR q = true ->
    calibration_fault tr (s32 (PTR_ERR q))
| cell_wrong_length (q : Z) (buf : list byte) :
    cell_reads tr = [(q, buf)] -> IS_ERR q = false ->
    List.length buf <> 2%nat ->
    calibration_fault tr (- EINVAL).

(** ** Further observations *)

(** The answers of the events of a trace that [f] picks, in order. *)
Fixpoint collect {A : Type} (f : event -> option A) (tr : list event)
  : list A :=
  match tr with
  | [] => []
  | ev :: tr' =>
      match f ev with
      | Some a => a :: collect f tr'
      | None => collect f tr'
      end
  end.

(** The pointer a devm_kzalloc call answered. *)
Definition alloc_of (ev : event) : option Z :=
  match ev with
  | Ev c x =>
      match c in call X return X -> option Z with
      | devm_kzalloc _ => fun p => Some p
      | _ => fun _ => None
      end x
  end.

(** The pointer handed to kfree. *)
Definition free_of (ev : event) : option Z :=
  match ev with
  | Ev (kfree p) _ => Some p
  | _ => None
  end.

(** The format string of a dev_err call. *)
Definition log_of (ev : event) : option string :=
  match ev with
  | Ev (dev_err fmt _) _ => Some fmt
  | _ => None
  end.

(** The pointer and struct handed to phy_driver_register. *)
Definition registration_of (ev : event) : option (Z * phy_driver) :=
  match ev with
  | Ev (phy_driver_register p contents) _ => Some (p, contents)
  | _ => None
  end.

(** The pointer handed to phy_driver_unregister. *)
Definition unregistration_of (ev : event) : option Z :=
  match ev with
  | Ev (phy_driver_unregister p) _ => Some p
  | _ => None
  end.

(** The pointer and struct handed to platform_set_drvdata. *)
Definition drvdata_of (ev : event) : option (Z * ac200_ephy_dev) :=
  match ev with
  | Ev (platform_set_drvdata p contents) _ => Some (p, contents)
  | _ => None
  end.

(** The struct ac200_dev pointer a chip access is made on. *)
Definition chip_dev_of (ev : event) : option Z :=
  match ev with
  | Ev (ac200_reg_write dev _ _) _ => Some dev
  | Ev (ac200_reg_mod dev _ _ _) _ => Some dev
  | _ => None
  end.

(** Register 0x1f of the PHY selects the page, as the driver's comments on
    its writes to it say.  [paged] tags every other MDIO access with the
    value last written to register 0x1f, starting from the value [page] it
    held before; [final_page] is the value it holds afterwards. *)
Fixpoint paged (page : Z) (l : list access) : list (Z * access) :=
  match l with
  | [] => []
  | MdioWrite regnum val :: l' =>
      if regnum =? 0x1f then paged val l'
      else (page, MdioWrite regnum val) :: paged page l'
  | MdioRead regnum answer :: l' =>
      (page, MdioRead regnum answer) :: paged page l'
  | _ :: l' => paged page l'
  end.

Fixpoint final_page (page : Z) (l : list access) : Z :=
  match l with
  | [] => page
  | MdioWrite regnum val :: l' =>
      if regnum =? 0x1f then final_page val l' else final_page page l'
  | _ :: l' => final_page page l'
  end.

(** A written value or register number within its width. *)
Definition access_in_range (a : access) : Prop :=
  match a with
  | MdioWrite regnum val => 0 <= regnum < 32 /\ 0 <= val < 2 ^ 16
  | MdioRead regnum _ => 0 <= regnum < 32
  | ChipWrite _ val => 0 <= val < 2 ^ 16
  | ChipMod _ mask val => 0 <= mask < 2 ^ 16 /\ 0 <= val < 2 ^ 16
  end.





(** ** A simulated board *)

(** Modelled from the spec: ac200_reg_mod is implemented by the parent MFD
    driver, of which the driver source carries only the calls; it is the
    chip's read-modify-write: the bits of the register under the mask take
    the bits of the value, the other bits keep what they held. *)
Definition update_bits (old mask value : Z) : Z :=
  Z.lor (Z.land old (Z.lnot mask)) (Z.land value mask).

Module Board.

(** The state of the board and the faults it is told to inject: the status
    each kind of call answers (0 is success). *)
Record board : Type := {
  priv_alloc : Z;
  ephy_alloc : Z;
  calib_cell : Z;
  calib_data : Z * list byte;
  chip : ac200_reg -> Z;
  chip_status : ac200_reg -> Z;
  mii : Z -> Z;
  mdio_status : Z;
  register_status : Z;
  driver_registered : bool
}.

Definition set_chip (b : board) (reg : ac200_reg) (v : Z) : board :=
  {| priv_alloc := priv_alloc b;
     ephy_alloc := ephy_alloc b;
     calib_cell := calib_cell b;
     calib_data := calib_data b;
     chip := fun r => if ac200_reg_eqb r reg then v else chip b r;
     chip_status := chip_status b;
     mii := mii b;
     mdio_status := mdio_status b;
     register_status := register_status b;
     driver_registered := driver_registered b |}.

Definition set_mii (b : board) (regnum v : Z) : board :=
  {| priv_alloc := priv_alloc b;
     ephy_alloc := ephy_alloc b;
     calib_cell := calib_cell b;
     calib_data := calib_data b;
     chip := chip b;
     chip_status := chip_status b;
     mii := fun r => if r =? regnum then v else mii b r;
     mdio_status := mdio_status b;
     register_status := register_status b;
     driver_registered := driver_registered b |}.

Definition set_registered (b : board) (v : bool) : board :=
  {| priv_alloc := priv_alloc b;
     ephy_alloc := ephy_alloc b;
     calib_cell := calib_cell b;
     calib_data := calib_data b;
     chip := chip b;
     chip_status := chip_status b;
     mii := mii b;
     mdio_status := mdio_status b;
     register_status := register_status b;
     driver_registered := v |}.

Definition serve : handler board :=
  fun X c =>
    match c in call X return board -> X * board with
    | devm_kzalloc sizeof_priv => fun b => (priv_alloc b, b)
    | devm_kzalloc sizeof_ephy => fun b => (ephy_alloc b, b)
    | devm_nvmem_cell_get _ => fun b => (calib_cell b, b)
    | nvmem_cell_read _ => fun b => (calib_data b, b)
    | kfree _ => fun b => (tt, b)
    | dev_err _ _ => fun b => (tt, b)
    | platform_set_drvdata _ _ => fun b => (tt, b)
    | ac200_reg_write _ reg v => fun b =>
        if chip_status b reg =? 0 then (0, set_chip b reg v)
        else (chip_status b reg, b)
    | ac200_reg_mod _ reg mask v => fun b =>
        if chip_status b reg =? 0
        then (0, set_chip b reg (update_bits (chip b reg) mask v))
        else (chip_status b reg, b)
    | phy_driver_register _ _ => fun b =>
        if register_status b =? 0 then (0, set_registered b true)
        else (register_status b, b)
    | phy_driver_unregister _ => fun b => (tt, set_registered b false)
    | phy_write regnum v => fun b =>
        if mdio_status b =? 0 then (0, set_mii b regnum v)
        else (mdio_status b, b)
    | phy_read regnum => fun b =>
        if mdio_status b =? 0 then (mii b regnum, b)
        else (mdio_status b, b)
    end.

(** A healthy board fresh out of reset, with the given calibration bytes. *)
Definition fresh (cal : list byte) : board :=
  {| priv_alloc := 0x1000;
     ephy_alloc := 0x2000;
     calib_cell := 0x3000;
     calib_data := (0x4000, cal);
     chip := fun _ => 0;
     chip_status := fun _ => 0;
     mii := fun _ => 0;
     mdio_status := 0;
     register_status := 0;
     driver_registered := false |}.

Definition the_pdev : platform_device :=
  {| parent_drvdata := 0x5000;
     drvdata := {| Priv.ephy := 0x2000; Priv.ac200 := 0x5000 |} |}.

Definition the_phydev (m : phy_interface_t) : phy_device :=
  {| interface := m;
     drv_driver_data := {| Priv.ephy := 0x2000; Priv.ac200 := 0x5000 |} |}.

(** A second PHY device in RMII mode, under another parent. *)
Definition other_phydev : phy_device :=
  {| interface := PHY_INTERFACE_MODE_RMII;
     drv_driver_data := {| Priv.ephy := 0x7000; Priv.ac200 := 0x8000 |} |}.

(** A board that has been probed before: AC200_EPHY_CTL holds a value. *)
Definition used : board :=
  set_chip (fresh [x09; x01]%byte) AC200_EPHY_CTL 0x8016.

(** Boards with one fault each. *)
Definition with_cell (b : board) (cell : Z) (data : Z * list byte) : board :=
  {| priv_alloc := priv_alloc b;
     ephy_alloc := ephy_alloc b;
     calib_cell := cell;
     calib_data := data;
     chip := chip b;
     chip_status := chip_status b;
     mii := mii b;
     mdio_status := mdio_status b;
     register_status := register_status b;
     driver_registered := driver_registered b |}.

Definition with_status (b : board) (chip_st : ac200_reg -> Z)
    (mdio_st register_st : Z) : board :=
  {| priv_alloc := priv_alloc b;
     ephy_alloc := ephy_alloc b;
     calib_cell := calib_cell b;
     calib_data := calib_data b;
     chip := chip b;
     chip_status := chip_st;
     mii := mii b;
     mdio_status := mdio_st;
     register_status := register_st;
     driver_registered := driver_registered b |}.

(** ERR_PTR(-ENOENT) and ERR_PTR(-EIO) as unsigned long. *)
Definition err_ptr_enoent : Z := u64 (- 2).
Definition err_ptr_eio : Z := u64 (- 5).

Definition no_cell : board := with_cell (fresh []) err_ptr_enoent (0, []).
Definition unreadable_cell : board :=
  with_cell (fresh []) 0x3000 (err_ptr_eio, []).
Definition long_cell : board :=
  with_cell (fresh []) 0x3000 (0x4000, [x05; x00; x00; x00]%byte).
Definition mdio_down : board :=
  with_status (fresh [x05; x00]%byte) (fun _ => 0) (- 5) 0.
Definition ctl1_stuck : board :=
  with_status (fresh [x05; x00]%byte)
    (fun r => if ac200_reg_eqb r AC200_SYS_EPHY_CTL1 then - 5 else 0) 0 0.
Definition register_refused : board :=
  with_status (fresh [x05; x00]%byte) (fun _ => 0) 0 (- 16).

End Board.

(** Boards on which a device-managed allocation fails. *)
Module Faults.

Definition with_alloc (b : Board.board) (priv_p ephy_p : Z) : Board.board :=
  {| Board.priv_alloc := priv_p;
     Board.ephy_alloc := ephy_p;
     Board.calib_cell := Board.calib_cell b;
     Board.calib_data := Board.calib_data b;
     Board.chip := Board.chip b;
     Board.chip_status := Board.chip_status b;
     Board.mii := Board.mii b;
     Board.mdio_status := Board.mdio_status b;
     Board.register_status := Board.register_status b;
     Board.driver_registered := Board.driver_registered b |}.

Definition no_memory : Board.board :=
  with_alloc (Board.fresh [x05; x00]%byte) 0x1000 0.

End Faults.

(** ** Stepping a run against an arbitrary handler *)

(** Ask the handler for its answer to the next call; when the routine
    branches on an answer, follow both branches. *)
Ltac run h :=
  repeat
    (cbn [exec bind trigger trace result world fst snd];
     match goal with
     | |- context [h ?X ?c ?w] =>
         let x := fresh "x" in
         let w1 := fresh "w" in
         destruct (h X c w) as [x w1]
     | |- context [exec h (if ?b then _ else _) _] =>
         let E := fresh "E" in
         destruct b eqn:E
     end);
  cbn [exec bind trigger trace result world fst snd].

Ltac observe :=
  cbn [accesses access_of writes reads filter is_write negb map touch
       register_answers register_answer chip_write_answers chip_write_answer
       cell_reads cell_read cell_gets cell_get registered existsb app rev].

Ltac observe_in H :=
  cbn [accesses access_of writes reads filter is_write negb map touch
       register_answers register_answer chip_write_answers chip_write_answer
       cell_reads cell_read cell_gets cell_get registered existsb app rev]
    in H.

(** Find the event singled out of a known trace: [H] equates the trace with
    [pre ++ ev :: post]. *)
Ltac locate H pre :=
  destruct pre as [|? pre]; cbn [app] in H;
  [ first [ discriminate H | injection H as ? ?; subst ]
  | first [ discriminate H | injection H as ? H; locate H pre ] ].

(** The same for the further observations, and unit answers. *)
Ltac observe_more :=
  cbn [collect alloc_of free_of log_of registration_of unregistration_of
       drvdata_of chip_dev_of accesses access_of register_answers
       register_answer chip_write_answers chip_write_answer cell_reads
       cell_read cell_gets cell_get registered existsb forallb app
       List.length fst snd].

Ltac units :=
  repeat match goal with
         | x : unit |- _ => destruct x
         end.

(** ** Integer facts *)

Lemma BIT_pow2 (n : Z) : BIT n = 2 ^ n.
Proof. unfold BIT. rewrite Z.shiftl_1_l. reflexivity. Qed.

Lemma testbit_BIT (n i : Z) : 0 <= n -> Z.testbit (BIT n) i = (n =? i).
Proof.
  intros Hn. rewrite BIT_pow2. destruct (Z.eqb_spec n i) as [->|Hne].
  - apply Z.pow2_bits_true. exact Hn.
  - apply Z.pow2_bits_false. exact Hne.
Qed.

(** value &= ~BIT(n) on an unsigned int loaded from an int, then passed as
    the u16 argument of phy_write: bit n of the low half is cleared. *)
Lemma clear_bit_written (r n : Z) :
  0 <= n < 16 ->
  u16 (u32 (Z.land (u32 r) (not_ulong (BIT n)))) = Z.clearbit (u16 r) n.
Proof.
  intros Hn. apply Z.bits_inj'. intros i Hi.
  unfold u16, u32, not_ulong, u64.
  rewrite Z.clearbit_eqb.
  rewrite !Z.testbit_mod_pow2 by lia.
  rewrite Z.land_spec.
  rewrite !Z.testbit_mod_pow2 by lia.
  rewrite Z.lnot_spec by exact Hi.
  rewrite testbit_BIT by lia.
  destruct (Z.ltb_spec i 16), (Z.ltb_spec i 32), (Z.ltb_spec i 64),
    (Z.eqb_spec n i), (Z.testbit r i); simpl; try reflexivity; lia.
Qed.

(** value |= BIT(n) on a u16. *)
Lemma set_bit_written (r n : Z) :
  0 <= n < 16 ->
  u16 (Z.lor (u16 r) (BIT n)) = Z.setbit (u16 r) n.
Proof.
  intros Hn. apply Z.bits_inj'. intros i Hi.
  unfold u16.
  rewrite Z.setbit_eqb by lia.
  rewrite !Z.testbit_mod_pow2 by lia.
  rewrite Z.lor_spec.
  rewrite !Z.testbit_mod_pow2 by lia.
  rewrite testbit_BIT by lia.
  destruct (Z.ltb_spec i 16), (Z.eqb_spec n i), (Z.testbit r i);
    simpl; try reflexivity; lia.
Qed.

(** An error pointer carries an errno between -MAX_ERRNO and -1. *)
Lemma PTR_ERR_negative (p : Z) :
  IS_ERR p = true -> - MAX_ERRNO <= s32 (PTR_ERR p) < 0.
Proof.
  unfold IS_ERR, PTR_ERR, s32, s64, u64, MAX_ERRNO. intros H.
  apply Z.leb_le in H.
  change (2 ^ 64) with 18446744073709551616 in *.
  change (2 ^ 63) with 9223372036854775808 in *.
  change (2 ^ 32) with 4294967296 in *.
  change (2 ^ 31) with 2147483648 in *.
  change (-4095 mod 18446744073709551616) with 18446744073709547521 in H.
  Z.to_euclidean_division_equations. lia.
Qed.

Lemma nibble_cases (m : Z) :
  0 <= m < 16 ->
  In m [0; 1; 2; 3; 4; 5; 6; 7; 8; 9; 10; 11; 12; 13; 14; 15].
Proof. intros H. simpl. lia. Qed.

Lemma low_nibble_u16 (x : Z) : Z.land (u16 x) 0xF = x mod 16.
Proof.
  unfold u16. change 0xF with (Z.ones 4). rewrite Z.land_ones by lia.
  change (2 ^ 4) with 16. change (2 ^ 16) with 65536.
  Z.to_euclidean_division_equations. lia.
Qed.

(** The calibration field of the value probe writes to AC200_EPHY_CTL. *)
Lemma calib_field_written (v : Z) :
  let val := Z.lor (Z.lor (Z.lor AC200_EPHY_LED_POL AC200_EPHY_CLK_SEL)
                          (AC200_EPHY_ADDR 1))
                   (AC200_EPHY_CALIB (u16 (v + 3))) in
  val = 0x16 + 4096 * ((v + 3) mod 16) /\
  calib_field val = (v + 3) mod 16.
Proof.
  intros val. unfold val, AC200_EPHY_CALIB. clear val.
  rewrite low_nibble_u16.
  assert (Hm : 0 <= (v + 3) mod 16 < 16) by (apply Z.mod_pos_bound; lia).
  apply nibble_cases in Hm.
  generalize dependent ((v + 3) mod 16). intros m Hm.
  repeat (destruct Hm as [<- | Hm]; [split; reflexivity|]).
  destruct Hm.
Qed.

(** The tests probe makes on a length and on a status. *)
Lemma length_eq_2 (buf : list byte) :
  negb (Z.of_nat (List.length buf) =? 2) = false -> List.length buf = 2%nat.
Proof.
  intros H. apply negb_false_iff in H. apply Z.eqb_eq in H. lia.
Qed.

Lemma status_nonzero (ret : Z) : negb (ret =? 0) = true -> ret <> 0.
Proof. intros H. apply negb_true_iff in H. apply Z.eqb_neq in H. exact H. Qed.

Lemma status_zero (ret : Z) : negb (ret =? 0) = false -> ret = 0.
Proof. intros H. apply negb_false_iff in H. apply Z.eqb_eq in H. exact H. Qed.

Lemma status_eqb_false (ret : Z) : negb (ret =? 0) = true -> (ret =? 0) = false.
Proof. intros H. apply negb_true_iff in H. exact H. Qed.

Lemma length_neq_2' (buf : list byte) :
  negb (Z.of_nat (List.length buf) =? 2) = true ->
  (List.length buf =? 2)%nat = false.
Proof.
  intros H. apply negb_true_iff in H. apply Z.eqb_neq in H.
  apply Nat.eqb_neq. lia.
Qed.

Lemma PTR_ERR_eqb_false (p : Z) :
  IS_ERR p = true -> (s32 (PTR_ERR p) =? 0) = false.
Proof.
  intros H. apply PTR_ERR_negative in H. apply Z.eqb_neq. lia.
Qed.

(** ** remove *)

(** C10.  remove returns 0 against every handler, hence whatever its three
    power-down ac200_reg_write calls answer: it makes exactly three such
    calls and none of their answers reaches the caller. *)
Theorem remove_returns_zero :
  forall (W : Type) (h : handler W) (w : W) (pdev : platform_device),
    let o := exec h (ac200_ephy_remove pdev) w in
    result o = 0 /\
    exists a1 a2 a3 : Z, chip_write_answers (trace o) = [a1; a2; a3].
Proof.
  intros W h w pdev. unfold ac200_ephy_remove.
  run h. observe.
  split; [reflexivity|]. eauto.
Qed.

(** C6.  The trace of remove is, against every handler: the unregistration
    of the PHY driver, then the writes AC200_EPHY_CTL := AC200_EPHY_SHUTDOWN,
    AC200_SYS_EPHY_CTL1 := 0, AC200_SYS_EPHY_CTL0 := 0, and nothing else; no
    unregistration follows a power-down write.  The registers are written in
    the reverse of the order in which probe writes them: reversed, they
    extend the registers written by any probe run and are those written by
    any probe run that returns 0. *)
Theorem remove_unregisters_then_powers_down :
  forall (W : Type) (h : handler W) (w : W) (pdev : platform_device),
    let priv := drvdata pdev in
    let tr := trace (exec h (ac200_ephy_remove pdev) w) in
    (exists a1 a2 a3 : Z,
        tr = [Ev (phy_driver_unregister (Priv.ephy priv)) tt;
              Ev (ac200_reg_write (Priv.ac200 priv) AC200_EPHY_CTL
                                  AC200_EPHY_SHUTDOWN) a1;
              Ev (ac200_reg_write (Priv.ac200 priv) AC200_SYS_EPHY_CTL1 0) a2;
              Ev (ac200_reg_write (Priv.ac200 priv) AC200_SYS_EPHY_CTL0 0) a3]) /\
    accesses tr = [ChipWrite AC200_EPHY_CTL 1;
                   ChipWrite AC200_SYS_EPHY_CTL1 0;
                   ChipWrite AC200_SYS_EPHY_CTL0 0] /\
    (exists ev rest, tr = ev :: rest /\ is_unregister ev = true /\
                     existsb is_unregister rest = false) /\
    (forall (W' : Type) (h' : handler W') (w' : W') (pdev' : platform_device),
        (exists later,
            map touch (accesses (trace (exec h' (ac200_ephy_probe pdev') w')))
              ++ later
            = rev (map touch (accesses tr))) /\
        (result (exec h' (ac200_ephy_probe pdev') w') <> 0 \/
         map touch (accesses (trace (exec h' (ac200_ephy_probe pdev') w')))
         = rev (map touch (accesses tr)))).
Proof.
  intros W h w pdev priv tr. subst priv tr. unfold ac200_ephy_remove.
  run h. destruct x.
  split; [eauto|]. split; [reflexivity|]. split.
  - eexists _, _. split; [reflexivity|]. split; reflexivity.
  - intros W' h' w' pdev'. unfold ac200_ephy_probe.
    run h'; observe; (split; [eauto|]).
    all: try (right; reflexivity).
    all: left.
    all: try (intros Hr; discriminate Hr).
    all: try (match goal with
              | E : IS_ERR ?p = true |- _ =>
                  pose proof (PTR_ERR_negative p E); lia
              end).
    all: apply status_nonzero; assumption.
Qed.

(** ** config_init *)

(** The register traffic of config_init as a function of the interface mode
    and of the three values its reads return. *)
Lemma config_init_accesses :
  forall (W : Type) (h : handler W) (w : W) (phydev : phy_device),
    let o := exec h (ac200_ephy_config_init phydev) w in
    exists r17 re r13 : Z,
      accesses (trace o) =
        [MdioWrite 0x1f 0x0100; MdioWrite 0x12 0x4824;
         MdioWrite 0x1f 0x0200; MdioWrite 0x18 0x0000;
         MdioWrite 0x1f 0x0600; MdioWrite 0x14 0x708f;
         MdioWrite 0x13 0xF000; MdioWrite 0x15 0x1530;
         MdioWrite 0x1f 0x0800; MdioWrite 0x18 0x00bc;
         MdioWrite 0x1f 0x0100; MdioRead 0x17 r17;
         MdioWrite 0x17 (Z.clearbit (u16 r17) 3); MdioWrite 0x1f 0x0000;
         MdioWrite 0xd 0x7; MdioWrite 0xe 0x3c; MdioWrite 0xd 0x4007;
         MdioRead 0xe re;
         MdioWrite 0xd 0x7; MdioWrite 0xe 0x3c; MdioWrite 0xd 0x4007;
         MdioWrite 0xe (Z.clearbit (u16 re) 1);
         MdioWrite 0x1f 0x0200; MdioWrite 0x18 0x0000;
         MdioWrite 0x1f 0x0000;
         ChipMod AC200_EPHY_CTL AC200_EPHY_XMII_SEL
                 (if is_rmii (interface phydev) then AC200_EPHY_XMII_SEL else 0);
         MdioRead 0x13 r13; MdioWrite 0x13 (Z.setbit (u16 r13) 12)] /\
      result o = 0.
Proof.
  intros W h w phydev.
  unfold ac200_ephy_config_init, disable_intelligent_ieee, disable_802_3az_ieee.
  run h. observe.
  rewrite !clear_bit_written by lia.
  rewrite set_bit_written by lia.
  eexists _, _, _. split; [|reflexivity].
  destruct (is_rmii (interface phydev)); reflexivity.
Qed.








(** C8.  Against every handler, config_init switches to page 1, reads
    register 0x17 and writes it back with bit 3 cleared and the other bits
    as read, switches to page 0, selects MMD device 7 register 0x3c through
    registers 0xd and 0xe, reads it, selects it again and writes it back
    with bit 1 cleared and the other bits as read, then writes 0 to page-2
    register 0x18, and only then switches back to page 0. *)
Theorem config_init_disables_ieee :
  forall (W : Type) (h : handler W) (w : W) (phydev : phy_device),
    let tr := trace (exec h (ac200_ephy_config_init phydev) w) in
    exists (r17 re v17 ve : Z) (before after : list access),
      accesses tr =
        before ++
        [MdioWrite 0x1f 0x0100; MdioRead 0x17 r17; MdioWrite 0x17 v17;
         MdioWrite 0x1f 0x0000;
         MdioWrite 0xd 0x7; MdioWrite 0xe 0x3c;
         MdioWrite 0xd (Z.lor (BIT 14) 0x7); MdioRead 0xe re;
         MdioWrite 0xd 0x7; MdioWrite 0xe 0x3c;
         MdioWrite 0xd (Z.lor (BIT 14) 0x7); MdioWrite 0xe ve;
         MdioWrite 0x1f 0x0200; MdioWrite 0x18 0x0000;
         MdioWrite 0x1f 0x0000] ++ after /\
      (forall i : N,
          Z.testbit v17 (Z.of_N i)
          = Z.testbit (u16 r17) (Z.of_N i) && negb (i =? 3)%N) /\
      (forall i : N,
          Z.testbit ve (Z.of_N i)
          = Z.testbit (u16 re) (Z.of_N i) && negb (i =? 1)%N).
Proof.
  intros W h w phydev tr. subst tr.
  destruct (config_init_accesses W h w phydev) as (r17 & re & r13 & Ha & _).
  cbv zeta in Ha. rewrite Ha. clear Ha.
  exists r17, re, (Z.clearbit (u16 r17) 3), (Z.clearbit (u16 re) 1).
  eexists (_ :: _ :: _ :: _ :: _ :: _ :: _ :: _ :: _ :: _ :: []), _.
  split; [reflexivity|].
  split; intros i; rewrite Z.clearbit_eqb by lia; f_equal; f_equal;
    destruct (Z.eqb_spec 3 (Z.of_N i)), (Z.eqb_spec 1 (Z.of_N i)),
      (N.eqb_spec i 3), (N.eqb_spec i 1); try reflexivity; lia.
Qed.

(** C7.  Two runs of config_init, against any two handlers and on any two
    PHY devices with the same interface mode, whose register reads return
    the same values, issue the same sequence of register writes: the same
    registers, masks and values in the same order. *)
Theorem config_init_deterministic :
  forall (W1 W2 : Type) (h1 : handler W1) (h2 : handler W2)
         (w1 : W1) (w2 : W2) (phydev1 phydev2 : phy_device),
    interface phydev1 = interface phydev2 ->
    reads (trace (exec h1 (ac200_ephy_config_init phydev1) w1))
    = reads (trace (exec h2 (ac200_ephy_config_init phydev2) w2)) ->
    writes (trace (exec h1 (ac200_ephy_config_init phydev1) w1))
    = writes (trace (exec h2 (ac200_ephy_config_init phydev2) w2)).
Proof.
  intros W1 W2 h1 h2 w1 w2 phydev1 phydev2 Hm.
  destruct (config_init_accesses W1 h1 w1 phydev1) as (a & b & c & Ha & _).
  destruct (config_init_accesses W2 h2 w2 phydev2) as (a' & b' & c' & Ha' & _).
  cbv zeta in Ha, Ha'. unfold reads, writes. rewrite Ha, Ha', Hm.
  cbn [filter is_write negb]. intros Hr.
  injection Hr as -> -> ->. reflexivity.
Qed.

Lemma config_init_deterministic_witness :
  interface (Board.the_phydev PHY_INTERFACE_MODE_RMII)
  = interface Board.other_phydev /\
  reads (trace (exec Board.serve
                  (ac200_ephy_config_init
                     (Board.the_phydev PHY_INTERFACE_MODE_RMII))
                  (Board.fresh [x05; x00]%byte)))
  = reads (trace (exec Board.serve
                    (ac200_ephy_config_init Board.other_phydev)
                    Board.used)) /\
  writes (trace (exec Board.serve
                   (ac200_ephy_config_init
                      (Board.the_phydev PHY_INTERFACE_MODE_RMII))
                   (Board.fresh [x05; x00]%byte)))
  = writes (trace (exec Board.serve
                     (ac200_ephy_config_init Board.other_phydev)
                     Board.used)).
Proof.
  split; [reflexivity|]. split; [vm_compute; reflexivity|].
  apply (config_init_deterministic _ _ Board.serve Board.serve).
  - reflexivity.
  - vm_compute. reflexivity.
Defined.

(** ** probe *)

(** The value of the AC200_EPHY_CTL write of a probe run, from the bytes the
    run read from the cell. *)
Lemma probe_ephy_ctl_write :
  forall (W : Type) (h : handler W) (w : W) (pdev : platform_device)
         (p : Z) (buf : list byte) (val : Z),
    cell_reads (trace (exec h (ac200_ephy_probe pdev) w)) = [(p, buf)] ->
    In (ChipWrite AC200_EPHY_CTL val)
       (accesses (trace (exec h (ac200_ephy_probe pdev) w))) ->
    List.length buf = 2%nat /\
    val = 0x16 + 4096 * ((load_u16 buf + 3) mod 16).
Proof.
  intros W h w pdev p buf val. unfold ac200_ephy_probe.
  run h; observe; cbn [In]; intros Hc Hin;
    repeat (destruct Hin as [Hin|Hin]; try discriminate Hin);
    try contradiction.
  all: injection Hin as <-; injection Hc as ->; cbn [fst snd] in *.
  all: split; [apply length_eq_2; assumption | apply calib_field_written].
Qed.

(** C1 (as amended).  A probe run that returns 0 has read one buffer from
    the calibration cell, of 2 bytes, has written AC200_SYS_EPHY_CTL0,
    AC200_SYS_EPHY_CTL1 and AC200_EPHY_CTL in that order and has registered
    the PHY driver; the calibration field of its AC200_EPHY_CTL write is the
    stored value plus 3, reduced modulo 16, beside the LED polarity, clock
    select and PHY address 1. *)
Theorem probe_applies_offset_calibration :
  forall (W : Type) (h : handler W) (w : W) (pdev : platform_device),
    result (exec h (ac200_ephy_probe pdev) w) = 0 ->
    exists (p : Z) (buf : list byte) (val : Z),
      cell_reads (trace (exec h (ac200_ephy_probe pdev) w)) = [(p, buf)] /\
      List.length buf = 2%nat /\
      accesses (trace (exec h (ac200_ephy_probe pdev) w))
        = [ChipWrite AC200_SYS_EPHY_CTL0 0x3;
           ChipWrite AC200_SYS_EPHY_CTL1 0xF;
           ChipWrite AC200_EPHY_CTL val] /\
      val = 0x16 + 4096 * ((load_u16 buf + 3) mod 16) /\
      calib_field val = (load_u16 buf + 3) mod 16 /\
      registered (trace (exec h (ac200_ephy_probe pdev) w)) = true.
Proof.
  intros W h w pdev. unfold ac200_ephy_probe.
  run h; observe; intros Hr;
    try discriminate Hr;
    try (match goal with
         | E : IS_ERR ?p = true |- _ =>
             pose proof (PTR_ERR_negative p E); lia
         end);
    try (match goal with
         | E : negb (?x =? 0) = true |- _ =>
             apply status_nonzero in E; contradiction
         end).
  match goal with
  | x : (Z * list byte)%type |- _ => destruct x as [p buf]
  end.
  cbn [fst snd] in *.
  repeat match goal with
         | E : negb (?x =? 0) = false |- _ => apply status_zero in E; subst x
         end.
  eexists p, buf, _.
  split; [reflexivity|].
  split; [apply length_eq_2; assumption|].
  split; [reflexivity|].
  split; [apply calib_field_written|].
  split; [apply calib_field_written|reflexivity].
Qed.

Lemma probe_applies_offset_calibration_witness :
  result (exec Board.serve (ac200_ephy_probe Board.the_pdev)
               (Board.fresh [x05; x00]%byte)) = 0 /\
  exists (p : Z) (buf : list byte) (val : Z),
    cell_reads (trace (exec Board.serve (ac200_ephy_probe Board.the_pdev)
                            (Board.fresh [x05; x00]%byte))) = [(p, buf)] /\
    List.length buf = 2%nat /\
    accesses (trace (exec Board.serve (ac200_ephy_probe Board.the_pdev)
                          (Board.fresh [x05; x00]%byte)))
      = [ChipWrite AC200_SYS_EPHY_CTL0 0x3;
         ChipWrite AC200_SYS_EPHY_CTL1 0xF;
         ChipWrite AC200_EPHY_CTL val] /\
    val = 0x16 + 4096 * ((load_u16 buf + 3) mod 16) /\
    calib_field val = (load_u16 buf + 3) mod 16 /\
    registered (trace (exec Board.serve (ac200_ephy_probe Board.the_pdev)
                            (Board.fresh [x05; x00]%byte))) = true.
Proof.
  split; [reflexivity|].
  apply (probe_applies_offset_calibration _ Board.serve).
  reflexivity.
Defined.

(** C1, as stated, fails: on a healthy board whose cell stores 5, probe
    succeeds and the calibration field it writes is 8. *)
Lemma probe_calibration_is_not_the_stored_value :
  result (exec Board.serve (ac200_ephy_probe Board.the_pdev)
               (Board.fresh [x05; x00]%byte)) = 0 /\
  cell_reads (trace (exec Board.serve (ac200_ephy_probe Board.the_pdev)
                          (Board.fresh [x05; x00]%byte)))
    = [(0x4000, [x05; x00]%byte)] /\
  load_u16 [x05; x00]%byte = 5 /\
  accesses (trace (exec Board.serve (ac200_ephy_probe Board.the_pdev)
                        (Board.fresh [x05; x00]%byte)))
    = [ChipWrite AC200_SYS_EPHY_CTL0 0x3;
       ChipWrite AC200_SYS_EPHY_CTL1 0xF;
       ChipWrite AC200_EPHY_CTL 0x8016] /\
  calib_field 0x8016 = 8 /\
  calib_field 0x8016 <> load_u16 [x05; x00]%byte.
Proof.
  repeat split; try reflexivity.
  vm_compute. discriminate.
Qed.

(** C9.  In every probe run that reaches the AC200_EPHY_CTL write, the
    calibration field written (bits 15:12) is (v + 3) mod 16 for the 16-bit
    value v read from the cell: v + 3 wrapped to 16 bits, then its low 4
    bits.  Of two such runs, against any handlers, the AC200_EPHY_CTL writes
    are identical exactly when the two stored values are congruent
    modulo 16. *)
Theorem probe_calibration_field :
  forall (W1 W2 : Type) (h1 : handler W1) (h2 : handler W2)
         (w1 : W1) (w2 : W2) (pdev1 pdev2 : platform_device)
         (p1 p2 : Z) (buf1 buf2 : list byte) (val1 val2 : Z),
    cell_reads (trace (exec h1 (ac200_ephy_probe pdev1) w1)) = [(p1, buf1)] ->
    In (ChipWrite AC200_EPHY_CTL val1)
       (accesses (trace (exec h1 (ac200_ephy_probe pdev1) w1))) ->
    cell_reads (trace (exec h2 (ac200_ephy_probe pdev2) w2)) = [(p2, buf2)] ->
    In (ChipWrite AC200_EPHY_CTL val2)
       (accesses (trace (exec h2 (ac200_ephy_probe pdev2) w2))) ->
    calib_field val1 = (load_u16 buf1 + 3) mod 16 /\
    calib_field val1 = u16 (load_u16 buf1 + 3) mod 16 /\
    (if load_u16 buf1 mod 16 =? load_u16 buf2 mod 16
     then val1 = val2 else val1 <> val2).
Proof.
  intros W1 W2 h1 h2 w1 w2 pdev1 pdev2 p1 p2 buf1 buf2 val1 val2
    Hc1 Hw1 Hc2 Hw2.
  destruct (probe_ephy_ctl_write _ h1 w1 pdev1 p1 buf1 val1 Hc1 Hw1)
    as [_ Hv1].
  destruct (probe_ephy_ctl_write _ h2 w2 pdev2 p2 buf2 val2 Hc2 Hw2)
    as [_ Hv2].
  assert (Hf : calib_field val1 = (load_u16 buf1 + 3) mod 16).
  { rewrite Hv1.
    destruct (calib_field_written (load_u16 buf1)) as [Hval Hfield].
    cbv zeta in Hval, Hfield. rewrite <- Hval. exact Hfield. }
  split; [exact Hf|]. split.
  - rewrite Hf. unfold u16. change (2 ^ 16) with 65536.
    Z.to_euclidean_division_equations. lia.
  - rewrite Hv1, Hv2.
    destruct (Z.eqb_spec (load_u16 buf1 mod 16) (load_u16 buf2 mod 16))
      as [He|Hne].
    + f_equal. f_equal.
      rewrite <- (Z.add_mod_idemp_l (load_u16 buf1)) by lia.
      rewrite <- (Z.add_mod_idemp_l (load_u16 buf2)) by lia.
      rewrite He. reflexivity.
    + intros Heq. apply Hne.
      assert (Hm : (load_u16 buf1 + 3) mod 16 = (load_u16 buf2 + 3) mod 16)
        by lia.
      revert Hm. Z.to_euclidean_division_equations. lia.
Qed.

Lemma probe_calibration_field_witness :
  calib_field 0x8016 = (load_u16 [x05; x00]%byte + 3) mod 16 /\
  calib_field 0x8016 = u16 (load_u16 [x05; x00]%byte + 3) mod 16 /\
  (if load_u16 [x05; x00]%byte mod 16 =? load_u16 [x15; xa0]%byte mod 16
   then 0x8016 = 0x8016 else 0x8016 <> 0x8016).
Proof.
  apply (probe_calibration_field _ _ Board.serve Board.serve
           (Board.fresh [x05; x00]%byte) (Board.fresh [x15; xa0]%byte)
           Board.the_pdev Board.the_pdev 0x4000 0x4000).
  - reflexivity.
  - vm_compute. right. right. left. reflexivity.
  - reflexivity.
  - vm_compute. right. right. left. reflexivity.
Defined.

(** C2.  When the calibration lookup of a probe run fails (the cell is
    missing, the cell cannot be read, or the buffer read is not 2 bytes
    long), probe returns the status of that fault: the errno carried by the
    error pointer in the first two cases, -EINVAL in the third.  The status
    is negative, and the run makes no register access and no call to
    phy_driver_register. *)
Theorem probe_calibration_errors :
  forall (W : Type) (h : handler W) (w : W) (pdev : platform_device) (e : Z),
    calibration_fault (trace (exec h (ac200_ephy_probe pdev) w)) e ->
    result (exec h (ac200_ephy_probe pdev) w) = e /\
    e < 0 /\
    accesses (trace (exec h (ac200_ephy_probe pdev) w)) = [] /\
    register_answers (trace (exec h (ac200_ephy_probe pdev) w)) = [] /\
    registered (trace (exec h (ac200_ephy_probe pdev) w)) = false.
Proof.
  intros W h w pdev e. unfold ac200_ephy_probe.
  run h; intros Hf; inversion Hf as [p Hg Hp He | q buf Hc Hq He
                                     | q buf Hc Hq Hl He];
    subst e; clear Hf; observe;
    try (observe_in Hg; try discriminate Hg; injection Hg as <-);
    try (observe_in Hc; try discriminate Hc; injection Hc as ->;
         cbn [fst snd] in * );
    try congruence;
    try (exfalso; apply Hl; apply length_eq_2; assumption).
  all: split; [reflexivity|].
  all: split;
    [first [ apply PTR_ERR_negative; assumption | reflexivity ]|].
  all: repeat split; reflexivity.
Qed.

Lemma probe_calibration_errors_witness :
  (calibration_fault
     (trace (exec Board.serve (ac200_ephy_probe Board.the_pdev)
                  Board.no_cell)) (- 2) /\
   result (exec Board.serve (ac200_ephy_probe Board.the_pdev)
                Board.no_cell) = - 2) /\
  (calibration_fault
     (trace (exec Board.serve (ac200_ephy_probe Board.the_pdev)
                  Board.unreadable_cell)) (- 5) /\
   result (exec Board.serve (ac200_ephy_probe Board.the_pdev)
                Board.unreadable_cell) = - 5) /\
  (calibration_fault
     (trace (exec Board.serve (ac200_ephy_probe Board.the_pdev)
                  Board.long_cell)) (- EINVAL) /\
   result (exec Board.serve (ac200_ephy_probe Board.the_pdev)
                Board.long_cell) = - EINVAL).
Proof.
  assert (H1 : calibration_fault
                 (trace (exec Board.serve (ac200_ephy_probe Board.the_pdev)
                              Board.no_cell)) (- 2)).
  { apply (cell_missing _ Board.err_ptr_enoent); reflexivity. }
  assert (H2 : calibration_fault
                 (trace (exec Board.serve (ac200_ephy_probe Board.the_pdev)
                              Board.unreadable_cell)) (- 5)).
  { apply (cell_unreadable _ Board.err_ptr_eio []); reflexivity. }
  assert (H3 : calibration_fault
                 (trace (exec Board.serve (ac200_ephy_probe Board.the_pdev)
                              Board.long_cell)) (- EINVAL)).
  { apply (cell_wrong_length _ 0x4000 [x05; x00; x00; x00]%byte);
      [reflexivity | reflexivity | simpl; lia]. }
  split; [|split].
  - split; [exact H1|].
    apply (probe_calibration_errors _ Board.serve _ _ _ H1).
  - split; [exact H2|].
    apply (probe_calibration_errors _ Board.serve _ _ _ H2).
  - split; [exact H3|].
    apply (probe_calibration_errors _ Board.serve _ _ _ H3).
Defined.

(** C4.  When an ac200_reg_write call or the phy_driver_register call of a
    probe run fails with status e, probe returns e, nothing after the failed
    call in the run is a register access or a registration, and no PHY
    driver is registered; such a run calls phy_driver_register only when its
    three ac200_reg_write calls all answered 0. *)
Theorem probe_stops_at_first_failure :
  forall (W : Type) (h : handler W) (w : W) (pdev : platform_device)
         (pre post : list event) (ev : event) (e : Z),
    trace (exec h (ac200_ephy_probe pdev) w) = pre ++ ev :: post ->
    bringup_failure ev = Some e ->
    result (exec h (ac200_ephy_probe pdev) w) = e /\
    e <> 0 /\
    accesses post = [] /\
    register_answers post = [] /\
    registered (trace (exec h (ac200_ephy_probe pdev) w)) = false /\
    (register_answers (trace (exec h (ac200_ephy_probe pdev) w)) = [] \/
     chip_write_answers (trace (exec h (ac200_ephy_probe pdev) w))
     = [0; 0; 0]).
Proof.
  intros W h w pdev pre post ev e. unfold ac200_ephy_probe.
  run h; intros Ht Hf; locate Ht pre;
    cbn [bringup_failure] in Hf; try discriminate Hf.
  all: repeat match goal with
         | E : negb (?x =? 0) = false |- _ => apply status_zero in E; subst x
         | E : negb (?x =? 0) = true |- _ => apply status_nonzero in E
         end.
  all: cbn [Z.eqb] in Hf; try discriminate Hf.
  all: match type of Hf with
       | (if ?x =? 0 then _ else _) = _ =>
           destruct (Z.eqb_spec x 0); [contradiction|];
           injection Hf as <-
       end.
  all: observe.
  all: repeat split; try reflexivity; try assumption.
  all: try (left; reflexivity).
  all: try (apply Z.eqb_neq in n; rewrite n; reflexivity).
  all: right; reflexivity.
Qed.

Lemma probe_stops_at_first_failure_witness :
  (trace (exec Board.serve (ac200_ephy_probe Board.the_pdev) Board.ctl1_stuck)
   = firstn 7 (trace (exec Board.serve (ac200_ephy_probe Board.the_pdev)
                            Board.ctl1_stuck))
     ++ Ev (ac200_reg_write 0x5000 AC200_SYS_EPHY_CTL1 0xF) (- 5) :: [] /\
   result (exec Board.serve (ac200_ephy_probe Board.the_pdev)
                Board.ctl1_stuck) = - 5) /\
  (trace (exec Board.serve (ac200_ephy_probe Board.the_pdev)
               Board.register_refused)
   = firstn 9 (trace (exec Board.serve (ac200_ephy_probe Board.the_pdev)
                            Board.register_refused))
     ++ Ev (phy_driver_register 0x2000
              {| phy_id := AC200_EPHY_ID;
                 phy_id_mask := AC200_EPHY_ID_MASK;
                 name := ac200_phy_name;
                 driver_data := 0x1000;
                 soft_reset := genphy_soft_reset;
                 config_init := ac200_ephy_config_init_op;
                 suspend := genphy_suspend;
                 resume := genphy_resume |}) (- 16)
        :: [Ev (dev_err ("Unable to register phy" ++ LF) []) tt] /\
   result (exec Board.serve (ac200_ephy_probe Board.the_pdev)
                Board.register_refused) = - 16).
Proof.
  split.
  - split; [reflexivity|].
    apply (probe_stops_at_first_failure _ Board.serve Board.ctl1_stuck
             Board.the_pdev
             (firstn 7 (trace (exec Board.serve
                                 (ac200_ephy_probe Board.the_pdev)
                                 Board.ctl1_stuck)))
             []
             (Ev (ac200_reg_write 0x5000 AC200_SYS_EPHY_CTL1 0xF) (- 5))
             (- 5)).
    + reflexivity.
    + reflexivity.
  - split; [reflexivity|].
    apply (probe_stops_at_first_failure _ Board.serve Board.register_refused
             Board.the_pdev
             (firstn 9 (trace (exec Board.serve
                                 (ac200_ephy_probe Board.the_pdev)
                                 Board.register_refused)))
             [Ev (dev_err ("Unable to register phy" ++ LF) []) tt]
             (Ev (phy_driver_register 0x2000
                    {| phy_id := AC200_EPHY_ID;
                       phy_id_mask := AC200_EPHY_ID_MASK;
                       name := ac200_phy_name;
                       driver_data := 0x1000;
                       soft_reset := genphy_soft_reset;
                       config_init := ac200_ephy_config_init_op;
                       suspend := genphy_suspend;
                       resume := genphy_resume |}) (- 16))
             (- 16)).
    + reflexivity.
    + reflexivity.
Defined.

(** C3 (as amended).  In probe, an ac200_reg_write call that answers a
    non-zero status e ends the run: probe returns e and nothing after the
    failed call is a register access, so the write is not retried.
    config_init checks none of its accesses: against every handler it
    returns 0 and touches the same registers in the same order, so it
    neither reports nor retries a failed phy_write. *)
Theorem register_write_failures :
  forall (W : Type) (h : handler W) (w : W) (pdev : platform_device)
         (pre post : list event) (ev : event) (e : Z),
    trace (exec h (ac200_ephy_probe pdev) w) = pre ++ ev :: post ->
    chip_write_answer ev = Some e ->
    e <> 0 ->
    (result (exec h (ac200_ephy_probe pdev) w) = e /\ accesses post = []) /\
    (forall (W' : Type) (h' : handler W') (w' : W') (phydev : phy_device),
        result (exec h' (ac200_ephy_config_init phydev) w') = 0 /\
        map touch
            (accesses (trace (exec h' (ac200_ephy_config_init phydev) w')))
        = config_init_touched).
Proof.
  intros W h w pdev pre post ev e Ht Hf Hne. split.
  - revert Ht Hf. unfold ac200_ephy_probe.
    run h; intros Ht Hf; locate Ht pre;
      cbn [chip_write_answer] in Hf; try discriminate Hf;
      injection Hf as <-;
      repeat match goal with
        | E : negb (?x =? 0) = false |- _ => apply status_zero in E
        end;
      try contradiction;
      observe; split; reflexivity.
  - intros W' h' w' phydev.
    destruct (config_init_accesses W' h' w' phydev)
      as (r17 & re & r13 & Ha & Hr).
    cbv zeta in Ha, Hr. rewrite Ha, Hr. split; reflexivity.
Qed.

Lemma register_write_failures_witness :
  trace (exec Board.serve (ac200_ephy_probe Board.the_pdev) Board.ctl1_stuck)
  = firstn 7 (trace (exec Board.serve (ac200_ephy_probe Board.the_pdev)
                           Board.ctl1_stuck))
    ++ Ev (ac200_reg_write 0x5000 AC200_SYS_EPHY_CTL1 0xF) (- 5) :: [] /\
  result (exec Board.serve (ac200_ephy_probe Board.the_pdev)
               Board.ctl1_stuck) = - 5.
Proof.
  split; [reflexivity|].
  apply (register_write_failures _ Board.serve Board.ctl1_stuck
           Board.the_pdev
           (firstn 7 (trace (exec Board.serve
                               (ac200_ephy_probe Board.the_pdev)
                               Board.ctl1_stuck)))
           []
           (Ev (ac200_reg_write 0x5000 AC200_SYS_EPHY_CTL1 0xF) (- 5))
           (- 5)).
  - reflexivity.
  - reflexivity.
  - lia.
Defined.

(** C3, as stated, fails for config_init: on a board whose MDIO bus answers
    -EIO, every phy_write of config_init fails and config_init returns 0. *)
Lemma config_init_ignores_mdio_failure :
  map mdio_write_failure
      (firstn 2 (trace (exec Board.serve
                          (ac200_ephy_config_init
                             (Board.the_phydev PHY_INTERFACE_MODE_RMII))
                          Board.mdio_down)))
  = [Some (- 5); Some (- 5)] /\
  result (exec Board.serve
               (ac200_ephy_config_init
                  (Board.the_phydev PHY_INTERFACE_MODE_RMII))
               Board.mdio_down) = 0 /\
  ~ result (exec Board.serve
                 (ac200_ephy_config_init
                    (Board.the_phydev PHY_INTERFACE_MODE_RMII))
                 Board.mdio_down) < 0.
Proof.
  split; [reflexivity|]. split; [reflexivity|].
  vm_compute. discriminate.
Qed.

(** ** Further properties of probe *)

(** X1.  When a devm_kzalloc call of a probe run answers NULL, probe returns
    -ENOMEM at once: the failed allocation is the last call of the run, and
    the run has looked up no NVMEM cell, accessed no register, logged
    nothing and registered nothing. *)
Theorem probe_out_of_memory :
  forall (W : Type) (h : handler W) (w : W) (pdev : platform_device)
         (pre post : list event) (ev : event),
    trace (exec h (ac200_ephy_probe pdev) w) = pre ++ ev :: post ->
    alloc_of ev = Some 0 ->
    result (exec h (ac200_ephy_probe pdev) w) = - ENOMEM /\
    post = [] /\
    cell_gets (trace (exec h (ac200_ephy_probe pdev) w)) = [] /\
    accesses (trace (exec h (ac200_ephy_probe pdev) w)) = [] /\
    collect log_of (trace (exec h (ac200_ephy_probe pdev) w)) = [] /\
    register_answers (trace (exec h (ac200_ephy_probe pdev) w)) = [].
Proof.
  intros W h w pdev pre post ev. unfold ac200_ephy_probe.
  run h; intros Ht Ha; locate Ht pre;
    cbn [alloc_of] in Ha; try discriminate Ha;
    injection Ha as ->; try discriminate;
    observe_more; repeat split; reflexivity.
Qed.

Lemma probe_out_of_memory_witness :
  trace (exec Board.serve (ac200_ephy_probe Board.the_pdev) Faults.no_memory)
  = [Ev (devm_kzalloc sizeof_priv) 0x1000]
    ++ Ev (devm_kzalloc sizeof_ephy) 0 :: [] /\
  result (exec Board.serve (ac200_ephy_probe Board.the_pdev)
               Faults.no_memory) = - ENOMEM.
Proof.
  split; [reflexivity|].
  apply (probe_out_of_memory _ Board.serve Faults.no_memory Board.the_pdev
           [Ev (devm_kzalloc sizeof_priv) 0x1000] []
           (Ev (devm_kzalloc sizeof_ephy) 0)).
  - reflexivity.
  - reflexivity.
Defined.

(** X2.  A probe run leaves a PHY driver registered exactly when it returns
    0, and it calls phy_driver_register at most once. *)
Theorem probe_registered_iff_success :
  forall (W : Type) (h : handler W) (w : W) (pdev : platform_device),
    registered (trace (exec h (ac200_ephy_probe pdev) w))
    = (result (exec h (ac200_ephy_probe pdev) w) =? 0) /\
    (List.length (register_answers (trace (exec h (ac200_ephy_probe pdev) w)))
     <= 1)%nat.
Proof.
  intros W h w pdev. unfold ac200_ephy_probe.
  run h; observe_more;
    repeat match goal with
      | E : negb (?x =? 0) = true |- _ => apply status_eqb_false in E
      | E : negb (?x =? 0) = false |- _ => apply status_zero in E; subst x
      | E : IS_ERR ?p = true |- _ => apply PTR_ERR_eqb_false in E
      end;
    split; try lia;
    try reflexivity;
    try (symmetry; assumption).
Qed.

(** X3.  probe hands the buffer nvmem_cell_read returned to kfree exactly
    once when the buffer is a valid pointer to 2 bytes, and never
    otherwise: a valid buffer of another length is not freed. *)
Theorem probe_frees_calibration_buffer :
  forall (W : Type) (h : handler W) (w : W) (pdev : platform_device),
    collect free_of (trace (exec h (ac200_ephy_probe pdev) w))
    = match cell_reads (trace (exec h (ac200_ephy_probe pdev) w)) with
      | [(caldata, buf)] =>
          if IS_ERR caldata then []
          else if (List.length buf =? 2)%nat then [caldata] else []
      | _ => []
      end.
Proof.
  intros W h w pdev. unfold ac200_ephy_probe.
  run h; observe_more; try reflexivity;
    match goal with
    | x : (Z * list byte)%type |- _ => destruct x as [caldata buf]
    end;
    cbn [fst snd] in *;
    repeat match goal with
      | E : IS_ERR _ = _ |- _ => rewrite E
      end;
    try reflexivity;
    try (match goal with
         | E : negb (Z.of_nat (List.length _) =? 2) = true |- _ =>
             apply length_neq_2' in E; rewrite E; reflexivity
         end);
    match goal with
    | E : negb (Z.of_nat (List.length _) =? 2) = false |- _ =>
        apply length_eq_2 in E; rewrite E; reflexivity
    end.
Qed.

(** X4.  A probe run logs at most one message; a message is the last call
    of its run and the run then returns a non-zero status.  Runs that end in
    a failed allocation or a failed ac200_reg_write log nothing. *)
Theorem probe_logs_once_at_the_end :
  forall (W : Type) (h : handler W) (w : W) (pdev : platform_device),
    (collect log_of (trace (exec h (ac200_ephy_probe pdev) w)) = [] \/
     exists (pre : list event) (fmt : string) (args : list Z),
       trace (exec h (ac200_ephy_probe pdev) w)
       = pre ++ [Ev (dev_err fmt args) tt] /\
       collect log_of pre = [] /\
       result (exec h (ac200_ephy_probe pdev) w) <> 0) /\
    (forallb (fun p => negb (p =? 0))
             (collect alloc_of (trace (exec h (ac200_ephy_probe pdev) w)))
     = true \/
     collect log_of (trace (exec h (ac200_ephy_probe pdev) w)) = []) /\
    (forallb (fun r => r =? 0)
             (chip_write_answers (trace (exec h (ac200_ephy_probe pdev) w)))
     = true \/
     collect log_of (trace (exec h (ac200_ephy_probe pdev) w)) = []).
Proof.
  intros W h w pdev. unfold ac200_ephy_probe.
  run h; units; observe_more; (split; [|split]);
    try (left; reflexivity); try (right; reflexivity).
  all: try (left;
            repeat match goal with
              | E : negb (?x =? 0) = false |- _ =>
                  apply status_zero in E; subst x
              | E : (?x =? 0) = false |- _ => rewrite E
              end; reflexivity).
  all: right.
  all: match goal with
       | |- exists pre fmt args, ?l = _ /\ _ =>
           exists (removelast l)
       end; eexists _, _; cbn [removelast app];
       (split; [reflexivity|]); (split; [reflexivity|]).
  all: try (match goal with
            | E : IS_ERR ?p = true |- _ =>
                pose proof (PTR_ERR_negative p E); lia
            end).
  all: try (intros Hr; discriminate Hr).
  all: apply status_nonzero; assumption.
Qed.

(** The AC200_EPHY_CTL value of a probe run is the fixed flags and address
    with some nibble in the calibration field. *)
Lemma probe_ephy_ctl_value :
  forall (W : Type) (h : handler W) (w : W) (pdev : platform_device)
         (val : Z),
    In (ChipWrite AC200_EPHY_CTL val)
       (accesses (trace (exec h (ac200_ephy_probe pdev) w))) ->
    exists m : Z, 0 <= m < 16 /\ val = 0x16 + 4096 * m.
Proof.
  intros W h w pdev val. unfold ac200_ephy_probe.
  run h; observe; cbn [In]; intros Hin;
    repeat (destruct Hin as [Hin|Hin]; try discriminate Hin);
    try contradiction.
  all: injection Hin as <-.
  all: eexists; split; [|apply calib_field_written].
  all: apply Z.mod_pos_bound; lia.
Qed.

(** X5.  Whatever the cell holds, the value a probe run writes to
    AC200_EPHY_CTL keeps the shutdown bit and the XMII select bit clear,
    sets the LED polarity and clock select bits, carries PHY address 1 in
    bits 8:4 and fits in 16 bits. *)
Theorem probe_ephy_ctl_flags :
  forall (W : Type) (h : handler W) (w : W) (pdev : platform_device)
         (val : Z),
    In (ChipWrite AC200_EPHY_CTL val)
       (accesses (trace (exec h (ac200_ephy_probe pdev) w))) ->
    Z.land val AC200_EPHY_SHUTDOWN = 0 /\
    Z.land val AC200_EPHY_XMII_SEL = 0 /\
    Z.land val AC200_EPHY_LED_POL = AC200_EPHY_LED_POL /\
    Z.land val AC200_EPHY_CLK_SEL = AC200_EPHY_CLK_SEL /\
    Z.land (Z.shiftr val 4) 0x1F = 1 /\
    0 <= val < 2 ^ 16.
Proof.
  intros W h w pdev val Hin.
  destruct (probe_ephy_ctl_value W h w pdev val Hin) as (m & Hm & ->).
  apply nibble_cases in Hm.
  repeat (destruct Hm as [<- | Hm];
          [repeat split; try reflexivity; discriminate|]).
  destruct Hm.
Qed.

Lemma probe_ephy_ctl_flags_witness :
  Z.land 0x8016 AC200_EPHY_SHUTDOWN = 0 /\
  Z.land 0x8016 AC200_EPHY_XMII_SEL = 0 /\
  Z.land 0x8016 AC200_EPHY_LED_POL = AC200_EPHY_LED_POL /\
  Z.land 0x8016 AC200_EPHY_CLK_SEL = AC200_EPHY_CLK_SEL /\
  Z.land (Z.shiftr 0x8016 4) 0x1F = 1 /\
  0 <= 0x8016 < 2 ^ 16.
Proof.
  apply (probe_ephy_ctl_flags _ Board.serve (Board.fresh [x05; x00]%byte)
           Board.the_pdev).
  vm_compute. right. right. left. reflexivity.
Defined.

(** X6.  What probe stores is what remove and config_init use.  In a probe
    run that calls phy_driver_register, the struct registered is the second
    allocation, which is not NULL, filled with the AC200 identifier, mask,
    name and callbacks and with the first allocation, not NULL either, as
    driver data; platform_set_drvdata has stored that first allocation,
    holding the registered pointer and the parent's struct ac200_dev, on
    which probe made its three writes.  remove, given that driver data,
    unregisters the pointer probe registered and makes its three writes on
    the same struct ac200_dev, and config_init, given it, makes its chip
    access there too. *)
Theorem probe_state_serves_remove_and_config_init :
  forall (W : Type) (h : handler W) (w : W) (pdev : platform_device)
         (p : Z) (drv : phy_driver),
    collect registration_of (trace (exec h (ac200_ephy_probe pdev) w))
    = [(p, drv)] ->
    exists (priv : Z) (c : ac200_ephy_dev),
      collect drvdata_of (trace (exec h (ac200_ephy_probe pdev) w))
      = [(priv, c)] /\
      collect alloc_of (trace (exec h (ac200_ephy_probe pdev) w))
      = [priv; p] /\
      priv <> 0 /\ p <> 0 /\
      c = {| Priv.ephy := p; Priv.ac200 := parent_drvdata pdev |} /\
      drv = {| phy_id := AC200_EPHY_ID;
               phy_id_mask := AC200_EPHY_ID_MASK;
               name := ac200_phy_name;
               driver_data := priv;
               soft_reset := genphy_soft_reset;
               config_init := ac200_ephy_config_init_op;
               suspend := genphy_suspend;
               resume := genphy_resume |} /\
      collect chip_dev_of (trace (exec h (ac200_ephy_probe pdev) w))
      = [parent_drvdata pdev; parent_drvdata pdev; parent_drvdata pdev] /\
      (forall (W' : Type) (h' : handler W') (w' : W') (parent : Z),
          collect unregistration_of
            (trace (exec h' (ac200_ephy_remove
                               {| parent_drvdata := parent; drvdata := c |})
                         w'))
          = [p] /\
          collect chip_dev_of
            (trace (exec h' (ac200_ephy_remove
                               {| parent_drvdata := parent; drvdata := c |})
                         w'))
          = [parent_drvdata pdev; parent_drvdata pdev; parent_drvdata pdev]) /\
      (forall (W' : Type) (h' : handler W') (w' : W') (m : phy_interface_t),
          collect chip_dev_of
            (trace (exec h' (ac200_ephy_config_init
                               {| interface := m; drv_driver_data := c |})
                         w'))
          = [parent_drvdata pdev]).
Proof.
  intros W h w pdev p drv. unfold ac200_ephy_probe.
  run h; observe_more; intros Hreg; try discriminate Hreg.
  all: injection Hreg as <- <-.
  all: eexists _, _.
  all: split; [reflexivity|].
  all: split; [reflexivity|].
  all: split; [apply Z.eqb_neq; assumption|].
  all: split; [apply Z.eqb_neq; assumption|].
  all: split; [reflexivity|].
  all: split; [reflexivity|].
  all: split; [reflexivity|].
  all: split.
  all: try (intros W' h' w' parent; unfold ac200_ephy_remove;
            run h'; observe_more; split; reflexivity).
  all: intros W' h' w' m;
    unfold ac200_ephy_config_init, disable_intelligent_ieee,
      disable_802_3az_ieee;
    run h'; observe_more; reflexivity.
Qed.

Lemma probe_state_serves_remove_and_config_init_witness :
  exists (priv : Z) (c : ac200_ephy_dev),
    collect drvdata_of
      (trace (exec Board.serve (ac200_ephy_probe Board.the_pdev)
                   (Board.fresh [x05; x00]%byte)))
    = [(priv, c)] /\
    c = {| Priv.ephy := 0x2000; Priv.ac200 := 0x5000 |}.
Proof.
  destruct (probe_state_serves_remove_and_config_init _ Board.serve
              (Board.fresh [x05; x00]%byte) Board.the_pdev 0x2000
              {| phy_id := AC200_EPHY_ID;
                 phy_id_mask := AC200_EPHY_ID_MASK;
                 name := ac200_phy_name;
                 driver_data := 0x1000;
                 soft_reset := genphy_soft_reset;
                 config_init := ac200_ephy_config_init_op;
                 suspend := genphy_suspend;
                 resume := genphy_resume |})
    as (priv & c & Hd & _ & _ & _ & Hc & _).
  - reflexivity.
  - exists priv, c. split; [exact Hd | exact Hc].
Defined.

(** ** Further properties of config_init and of the bit fields *)

(** X7.  The last two accesses of config_init read register 0x13 and write
    it back with bit 12 set and its other 15 bits as read; the routine
    returns 0. *)
Theorem config_init_sets_bit_12 :
  forall (W : Type) (h : handler W) (w : W) (phydev : phy_device),
    exists (r13 v13 : Z) (before : list access),
      accesses (trace (exec h (ac200_ephy_config_init phydev) w))
      = before ++ [MdioRead 0x13 r13; MdioWrite 0x13 v13] /\
      (forall i : N,
          Z.testbit v13 (Z.of_N i)
          = Z.testbit (u16 r13) (Z.of_N i) || (i =? 12)%N) /\
      result (exec h (ac200_ephy_config_init phydev) w) = 0.
Proof.
  intros W h w phydev.
  destruct (config_init_accesses W h w phydev) as (r17 & re & r13 & Ha & Hr).
  cbv zeta in Ha, Hr. rewrite Ha, Hr.
  exists r13, (Z.setbit (u16 r13) 12).
  eexists (_ :: _ :: _ :: _ :: _ :: _ :: _ :: _ :: _ :: _ :: _ :: _ :: _ ::
           _ :: _ :: _ :: _ :: _ :: _ :: _ :: _ :: _ :: _ :: _ :: _ :: _ :: []).
  split; [reflexivity|]. split; [|reflexivity].
  intros i. rewrite Z.setbit_eqb by lia. rewrite orb_comm. f_equal.
  destruct (Z.eqb_spec 12 (Z.of_N i)), (N.eqb_spec i 12);
    try reflexivity; lia.
Qed.

(** X8.  Whatever the bus answers to its reads (a negative errno
    included), every MDIO register number config_init uses is below 32 and
    every value, and the mask, it passes to phy_write and ac200_reg_mod fits
    in 16 bits. *)
Theorem config_init_accesses_in_range :
  forall (W : Type) (h : handler W) (w : W) (phydev : phy_device),
    Forall access_in_range
           (accesses (trace (exec h (ac200_ephy_config_init phydev) w))).
Proof.
  intros W h w phydev.
  unfold ac200_ephy_config_init, disable_intelligent_ieee, disable_802_3az_ieee.
  run h. observe.
  repeat (apply Forall_cons; [|]); try apply Forall_nil;
    unfold access_in_range;
    try (split; [lia|]);
    try (unfold u16; apply Z.mod_pos_bound; reflexivity);
    try (split; cbv; intuition discriminate);
    try lia.
  destruct (is_rmii (interface phydev)); split; cbv; intuition discriminate.
Qed.

(** X9.  config_init does not depend on the page the PHY was left on: every
    access it makes to a paged register follows a page selection of its
    own, so the accesses are made under the same pages whatever page was
    selected at entry.  Register 0x17 is read and written back under page
    0x0100, the MMD registers 0xd and 0xe and register 0x13 under page 0,
    and at exit page 0 is selected. *)
Theorem config_init_pages :
  forall (W : Type) (h : handler W) (w : W) (phydev : phy_device)
         (entry entry' : Z),
    paged entry (accesses (trace (exec h (ac200_ephy_config_init phydev) w)))
    = paged entry'
            (accesses (trace (exec h (ac200_ephy_config_init phydev) w))) /\
    final_page entry
               (accesses (trace (exec h (ac200_ephy_config_init phydev) w)))
    = 0 /\
    exists r17 re r13 : Z,
      map (fun pa => (fst pa, touch (snd pa)))
          (paged entry
                 (accesses (trace (exec h (ac200_ephy_config_init phydev) w))))
      = [(0x0100, TMdioWrite 0x12);
         (0x0200, TMdioWrite 0x18);
         (0x0600, TMdioWrite 0x14); (0x0600, TMdioWrite 0x13);
         (0x0600, TMdioWrite 0x15);
         (0x0800, TMdioWrite 0x18);
         (0x0100, TMdioRead 0x17); (0x0100, TMdioWrite 0x17);
         (0, TMdioWrite 0xd); (0, TMdioWrite 0xe); (0, TMdioWrite 0xd);
         (0, TMdioRead 0xe);
         (0, TMdioWrite 0xd); (0, TMdioWrite 0xe); (0, TMdioWrite 0xd);
         (0, TMdioWrite 0xe);
         (0x0200, TMdioWrite 0x18);
         (0, TMdioRead 0x13); (0, TMdioWrite 0x13)] /\
      In (0x0100, MdioRead 0x17 r17)
         (paged entry
            (accesses (trace (exec h (ac200_ephy_config_init phydev) w)))) /\
      In (0, MdioRead 0xe re)
         (paged entry
            (accesses (trace (exec h (ac200_ephy_config_init phydev) w)))) /\
      In (0, MdioRead 0x13 r13)
         (paged entry
            (accesses (trace (exec h (ac200_ephy_config_init phydev) w)))).
Proof.
  intros W h w phydev entry entry'.
  destruct (config_init_accesses W h w phydev) as (r17 & re & r13 & Ha & _).
  cbv zeta in Ha. rewrite Ha. clear Ha.
  cbn [paged final_page Z.eqb Pos.eqb map fst snd touch].
  split; [reflexivity|]. split; [reflexivity|].
  exists r17, re, r13.
  split; [reflexivity|].
  cbn [In]. repeat split; tauto.
Qed.

(** X10.  The two helpers differ in what they need and leave behind.
    disable_intelligent_ieee selects page 0x0100 itself before it touches
    register 0x17 and leaves page 0 selected.  disable_802_3az_ieee makes
    its eight MMD accesses under whatever page was selected at entry, and
    leaves page 0x0200 selected, not the page it found. *)
Theorem helpers_and_pages :
  forall (W : Type) (h : handler W) (w : W) (entry : Z),
    (exists r17 v17 : Z,
        paged entry (accesses (trace (exec h disable_intelligent_ieee w)))
        = [(0x0100, MdioRead 0x17 r17); (0x0100, MdioWrite 0x17 v17)] /\
        final_page entry (accesses (trace (exec h disable_intelligent_ieee w)))
        = 0) /\
    (exists re ve : Z,
        paged entry (accesses (trace (exec h disable_802_3az_ieee w)))
        = [(entry, MdioWrite 0xd 0x7); (entry, MdioWrite 0xe 0x3c);
           (entry, MdioWrite 0xd 0x4007); (entry, MdioRead 0xe re);
           (entry, MdioWrite 0xd 0x7); (entry, MdioWrite 0xe 0x3c);
           (entry, MdioWrite 0xd 0x4007); (entry, MdioWrite 0xe ve);
           (0x0200, MdioWrite 0x18 0)] /\
        final_page entry (accesses (trace (exec h disable_802_3az_ieee w)))
        = 0x0200).
Proof.
  intros W h w entry. split.
  - unfold disable_intelligent_ieee. run h. observe.
    cbn [paged final_page Z.eqb Pos.eqb]. eauto.
  - unfold disable_802_3az_ieee. run h. observe.
    cbn [paged final_page Z.eqb Pos.eqb]. eauto.
Qed.

(** X11.  The field macros place their argument and nothing else:
    AC200_EPHY_CALIB(x) holds bits 3:0 of x in bits 15:12 and
    AC200_EPHY_ADDR(x) holds bits 4:0 of x in bits 8:4, every other bit
    being 0, for every integer x; the calibration field read back from
    AC200_EPHY_CALIB(x) is x mod 16. *)
Theorem field_macros_layout :
  forall (x : Z) (i : N),
    Z.testbit (AC200_EPHY_CALIB x) (Z.of_N i)
    = (12 <=? i)%N && (i <? 16)%N && Z.testbit x (Z.of_N i - 12) /\
    Z.testbit (AC200_EPHY_ADDR x) (Z.of_N i)
    = (4 <=? i)%N && (i <? 9)%N && Z.testbit x (Z.of_N i - 4) /\
    calib_field (AC200_EPHY_CALIB x) = x mod 16.
Proof.
  intros x i. unfold AC200_EPHY_CALIB, AC200_EPHY_ADDR, calib_field.
  change 0xF with (Z.ones 4). change 0x1F with (Z.ones 5).
  split; [|split].
  - rewrite Z.shiftl_spec by lia. rewrite Z.land_spec.
    destruct (N.leb_spec 12 i) as [Hl|Hl].
    + rewrite Z.testbit_ones_nonneg by lia.
      destruct (N.ltb_spec i 16) as [Hu|Hu], (Z.ltb_spec (Z.of_N i - 12) 4);
        try lia; destruct (Z.testbit x (Z.of_N i - 12)); reflexivity.
    + rewrite !Z.testbit_neg_r by lia. reflexivity.
  - rewrite Z.shiftl_spec by lia. rewrite Z.land_spec.
    destruct (N.leb_spec 4 i) as [Hl|Hl].
    + rewrite Z.testbit_ones_nonneg by lia.
      destruct (N.ltb_spec i 9) as [Hu|Hu], (Z.ltb_spec (Z.of_N i - 4) 5);
        try lia; destruct (Z.testbit x (Z.of_N i - 4)); reflexivity.
    + rewrite !Z.testbit_neg_r by lia. reflexivity.
  - rewrite Z.shiftr_shiftl_l by lia. change (12 - 12) with 0.
    rewrite Z.shiftl_0_r. rewrite <- Z.land_assoc. rewrite Z.land_diag.
    rewrite Z.land_ones by lia. reflexivity.
Qed.

(** X12.  probe never undoes what it has done.  The register writes of
    every run are an initial part of AC200_SYS_EPHY_CTL0 := 3,
    AC200_SYS_EPHY_CTL1 := 0xF, AC200_EPHY_CTL := flags and calibration:
    each register is written at most once and none is written back, and no
    run calls phy_driver_unregister.  A run that reaches
    phy_driver_register has made all three writes, so when the registration
    fails the PHY stays powered up without a driver. *)
Theorem probe_never_rolls_back :
  forall (W : Type) (h : handler W) (w : W) (pdev : platform_device),
    exists (val : Z) (later : list access),
      accesses (trace (exec h (ac200_ephy_probe pdev) w)) ++ later
      = [ChipWrite AC200_SYS_EPHY_CTL0 0x3;
         ChipWrite AC200_SYS_EPHY_CTL1 0xF;
         ChipWrite AC200_EPHY_CTL val] /\
      (register_answers (trace (exec h (ac200_ephy_probe pdev) w)) = [] \/
       later = []) /\
      collect unregistration_of (trace (exec h (ac200_ephy_probe pdev) w))
      = [].
Proof.
  intros W h w pdev. unfold ac200_ephy_probe.
  run h; observe_more;
    first [ exists 0; eexists; split; [reflexivity|]
          | eexists _, _; split; [reflexivity|] ];
    (split; [|reflexivity]);
    first [ left; reflexivity | right; reflexivity ].
Qed.
